(** * DollarBill ML bridge: signal classifier and volatility forecaster

    A shallow embedding of [ml/signal_classifier.py],
    [ml/volatility_predictor.py] and the liquidity handling of
    [py/fetch_options.py] / [fetch_multi_options.py].

    Python floats are IEEE binary64 numbers and are modelled by Rocq's
    primitive floats, so that NaN and the comparison against the literal
    [0.7] behave as they do in the interpreter.  Python integers are [Z].
    Exceptions are values of [exn] carried by the [result] monad.
    scikit-learn, Keras, joblib, json and NumPy's generator are libraries
    the programs call: fitted objects are records of their methods, the
    other entry points are parameters of the sections that use them. *)

From Stdlib Require Import ZArith List String Ascii Bool Lia.
From Stdlib Require Import Floats Uint63 Permutation.
Import ListNotations.

#[local] Set Warnings "-inexact-float".
#[local] Open Scope string_scope.
#[local] Open Scope Z_scope.

(** ** Python runtime *)

Inductive exn : Type :=
| ValueError (msg : string)
| KeyError (keys : list string)
| IndexError
| AttributeError (attr : string)
| FileNotFoundError (path : string)
| UnpicklingError (path : string)
| NotFittedError
| OverflowError.

Inductive result (A : Type) : Type :=
| Ok (a : A)
| Raise (e : exn).

Arguments Ok {A} a.
Arguments Raise {A} e.

Definition bind {A B : Type} (m : result A) (k : A -> result B) : result B :=
  match m with
  | Ok a => k a
  | Raise e => Raise e
  end.

Declare Scope py_scope.
Delimit Scope py_scope with py.
Notation "x <- m ;; k" := (bind m (fun x => k))
  (at level 61, m at next level, right associativity) : py_scope.
Notation "' p <- m ;; k" := (bind m (fun x => let p := x in k))
  (at level 61, p pattern, m at next level, right associativity) : py_scope.
#[local] Open Scope py_scope.

Fixpoint mapM {A B : Type} (f : A -> result B) (l : list A) : result (list B) :=
  match l with
  | [] => Ok []
  | a :: l' => b <- f a ;; bs <- mapM f l' ;; Ok (b :: bs)
  end.

(** [range(n)] for a Python integer [n]: empty when [n <= 0]. *)
Definition range (n : Z) : list Z := map Z.of_nat (seq 0 (Z.to_nat n)).

(** [len(l)] *)
Definition len {A : Type} (l : list A) : Z := Z.of_nat (List.length l).

(** [l[k]]: a negative index counts from the end, anything out of range
    raises [IndexError]. *)
Definition getitem {A : Type} (l : list A) (k : Z) : result A :=
  let k' := if k <? 0 then len l + k else k in
  if k' <? 0 then Raise IndexError
  else match nth_error l (Z.to_nat k') with
       | Some a => Ok a
       | None => Raise IndexError
       end.

(** [l[-1:]]: the last element as a list of at most one element. *)
Fixpoint last_slice {A : Type} (l : list A) : list A :=
  match l with
  | [] => []
  | [a] => [a]
  | _ :: l' => last_slice l'
  end.

(** [str.replace(old, new)]: every non-overlapping occurrence, left to
    right.  [skip] counts the characters of a matched occurrence that are
    still to be dropped. *)
Fixpoint replace_from (old new : string) (skip : nat) (s : string) : string :=
  match s with
  | EmptyString => match old with EmptyString => new | _ => EmptyString end
  | String c s' =>
      match skip with
      | S k => replace_from old new k s'
      | O =>
          match old with
          | EmptyString => new ++ String c (replace_from old new 0 s')
          | String _ old' =>
              if prefix old s
              then new ++ replace_from old new (String.length old') s'
              else String c (replace_from old new 0 s')
          end
      end
  end.

Definition replace (old new s : string) : string := replace_from old new 0 s.

(** [os.path.dirname] on POSIX paths: the text before the last slash, with
    trailing slashes removed unless it consists of slashes only. *)
Fixpoint rsplit_slash (s : string) : option (string * string) :=
  match s with
  | EmptyString => None
  | String c s' =>
      match rsplit_slash s' with
      | Some (h, t) => Some (String c h, t)
      | None => if Ascii.eqb c "/" then Some (String c EmptyString, s') else None
      end
  end.

Fixpoint rstrip_slash (s : string) : string :=
  match s with
  | EmptyString => EmptyString
  | String c s' =>
      match rstrip_slash s' with
      | EmptyString => if Ascii.eqb c "/" then EmptyString else String c EmptyString
      | r => String c r
      end
  end.

Definition dirname (p : string) : string :=
  match rsplit_slash p with
  | None => EmptyString
  | Some (h, _) =>
      match rstrip_slash h with
      | EmptyString => h
      | r => r
      end
  end.

(** ** Floats *)

Module F.
#[local] Open Scope float_scope.

(** [float(z)] for a Python or NumPy integer in the int64 range. *)
Definition of_Z (z : Z) : float :=
  if (z <? 0)%Z then - PrimFloat.of_uint63 (Uint63.of_Z (- z))
  else PrimFloat.of_uint63 (Uint63.of_Z z).

(** The built-in [min(a, b)]: the first argument unless the second is
    strictly smaller. *)
Definition min (a b : float) : float := if b <? a then b else a.

(** [int(x)] for a float: truncation toward zero. *)
Definition to_int (x : float) : result Z :=
  match Prim2SF x with
  | S754_zero _ => Ok 0%Z
  | S754_finite s m e =>
      let a := Z.shiftl (Zpos m) e in
      Ok (if s then (- a)%Z else a)
  | S754_infinity _ => Raise OverflowError
  | S754_nan => Raise (ValueError "cannot convert float NaN to integer")
  end.

(** NumPy's reductions [.sum()] and [.mean()] of an array, accumulated
    left to right.  NumPy adds long columns in blocks, which can change
    the last bit of a sum; the properties below do not depend on the
    order. *)
Definition sum (l : list float) : float := fold_left PrimFloat.add l 0.

Definition mean (l : list float) : float :=
  sum l / PrimFloat.of_uint63 (Uint63.of_Z (len l)).

(** pandas' [Series.mean()]: NaN entries are skipped. *)
Definition mean_skipna (l : list float) : float :=
  mean (filter (fun x => negb (PrimFloat.is_nan x)) l).
End F.

(** ** [ml/signal_classifier.py] *)

Module signal_classifier.

(** Values a feature record can hold: what [json.loads] produces for a
    scalar, or what a Python caller puts in the dict. *)
Inductive pyval : Type :=
| PyFloat (f : float)
| PyInt (z : Z)
| PyBool (b : bool)
| PyStr (s : string)
| PyNone.

(** A [dict] with string keys, in insertion order.  A well-formed dict
    has no key twice; [dict_get] reads the first binding. *)
Definition pydict : Type := list (string * pyval).

Fixpoint dict_get (d : pydict) (k : string) : option pyval :=
  match d with
  | [] => None
  | (k', v) :: d' => if String.eqb k' k then Some v else dict_get d' k
  end.

Definition dict_keys (d : pydict) : list string := map fst d.

(** [predict] accepts a JSON string or a dict. *)
Inductive signal_input : Type :=
| SigStr (s : string)
| SigDict (d : pydict).

(** A loaded object, seen through the methods the program calls on it.
    A method the object does not have raises [AttributeError].
    [obj_predict_proba] and [obj_predict] return row 0 of the arrays
    scikit-learn returns for a one-row input. *)
Record pyobj : Type := {
  obj_transform : list pyval -> result (list float);
  obj_predict_proba : list float -> result (list float);
  obj_predict : list float -> result Z
}.

Definition call {A : Type} (o : option pyobj) (name : string)
    (method : pyobj -> result A) : result A :=
  match o with
  | Some o => method o
  | None => Raise (AttributeError name)
  end.

(** The artifact files: a path holds a pickled object, bytes that do not
    unpickle, or nothing. *)
Inductive file : Type :=
| Pickled (o : pyobj)
| Garbage.

Definition disk : Type := string -> option file.

Definition path_exists (fs : disk) (p : string) : bool :=
  match fs p with Some _ => true | None => false end.

Definition joblib_load (fs : disk) (p : string) : result pyobj :=
  match fs p with
  | Some (Pickled o) => Ok o
  | Some Garbage => Raise (UnpicklingError p)
  | None => Raise (FileNotFoundError p)
  end.

Definition joblib_dump (o : pyobj) (p : string) (fs : disk) : disk :=
  fun q => if String.eqb q p then Some (Pickled o) else fs q.

(** [os.makedirs(p, exist_ok=True)]: the empty path is refused. *)
Definition makedirs (p : string) : result unit :=
  if String.eqb p "" then Raise (FileNotFoundError p) else Ok tt.

Record SignalClassifier : Type := {
  model_path : string;
  model : option pyobj;
  scaler : option pyobj;
  is_trained : bool
}.

Definition default_model_path : string := "models/signal_classifier.pkl".

Definition scaler_path (model_path : string) : string :=
  replace ".pkl" "_scaler.pkl" model_path.

(** [SignalClassifier.__init__]: every exception of the two loads is
    caught; the fields assigned before it stay assigned. *)
Definition __init__ (fs : disk) (model_path : string) : SignalClassifier :=
  let self := {| model_path := model_path; model := None;
                 scaler := None; is_trained := false |} in
  if path_exists fs model_path then
    match joblib_load fs model_path with
    | Raise _ => self
    | Ok m =>
        let self := {| model_path := model_path; model := Some m;
                       scaler := None; is_trained := false |} in
        match joblib_load fs (scaler_path model_path) with
        | Raise _ => self
        | Ok s => {| model_path := model_path; model := Some m;
                     scaler := Some s; is_trained := true |}
        end
    end
  else self.

Definition feature_cols : list string :=
  ["edge_percent"; "delta"; "gamma"; "vega"; "theta";
   "volume"; "open_interest"; "days_to_expiry"].

(** [pd.DataFrame([d])[cols]]: the single row restricted to [cols], in
    the order of [cols]; [KeyError] names the columns [d] lacks. *)
Fixpoint frame_row (d : pydict) (cols : list string) : option (list pyval) :=
  match cols with
  | [] => Some []
  | c :: cols' =>
      match dict_get d c, frame_row d cols' with
      | Some v, Some vs => Some (v :: vs)
      | _, _ => None
      end
  end.

Definition missing_cols (d : pydict) (cols : list string) : list string :=
  filter (fun c => match dict_get d c with Some _ => false | None => true end)
         cols.

Definition select_columns (d : pydict) (cols : list string)
    : result (list pyval) :=
  match frame_row d cols with
  | Some row => Ok row
  | None => Raise (KeyError (missing_cols d cols))
  end.

(** The record cut down to the eight schema fields. *)
Definition restrict (d : pydict) : pydict :=
  filter (fun kv => existsb (String.eqb (fst kv)) feature_cols) d.

Inductive Recommendation : Type := TRADE | AVOID.

Record PredictionResult : Type := {
  is_profitable : bool;
  confidence : float;
  recommendation : Recommendation
}.

(** NumPy's global generator: [np.random.seed] installs a state that
    depends on the seed only, every draw maps a state to a value and the
    next state. *)
Record NumpyRandom : Type := {
  rng_state : Type;
  np_seed : Z -> rng_state;
  np_normal : float -> float -> rng_state -> float * rng_state;
  np_poisson : Z -> rng_state -> Z * rng_state;
  np_randint : Z -> Z -> rng_state -> Z * rng_state;
  np_random : rng_state -> float * rng_state
}.

(** A row of the training frame; [label] is the column [is_profitable]. *)
Record TrainingExample : Type := {
  edge_percent : float;
  delta : float;
  gamma : float;
  vega : float;
  theta : float;
  volume : Z;
  open_interest : Z;
  days_to_expiry : Z;
  label : Z
}.

(** What lines 97-131 of [train] compute from the frame with
    scikit-learn: the fitted scaler, the fitted forest and the held-out
    accuracy. *)
Record Fitted : Type := {
  fitted_scaler : pyobj;
  fitted_model : pyobj;
  accuracy : float
}.

Section Program.
Variable R : NumpyRandom.
(** [json.loads], for the inputs that decode to an object. *)
Variable json_loads : string -> result pydict.
(** The split, [StandardScaler.fit_transform],
    [RandomForestClassifier.fit] and [accuracy_score]. *)
Variable sk_fit : list TrainingExample -> result Fitted.

#[local] Open Scope float_scope.

(** One iteration of the loop of [generate_training_data]. *)
Definition draw_sample (g : rng_state R) : TrainingExample * rng_state R :=
  let '(edge_percent, g) := np_normal R 12 8 g in
  let '(delta, g) := np_normal R 0.5 0.3 g in
  let '(gamma, g) := np_normal R 0.005 0.003 g in
  let '(vega, g) := np_normal R 50 30 g in
  let '(theta, g) := np_normal R (-10) 5 g in
  let '(volume, g) := np_poisson R 1000%Z g in
  let '(open_interest, g) := np_poisson R 5000%Z g in
  let '(days_to_expiry, g) := np_randint R 7%Z 90%Z g in
  let '(noise, g) := np_random R g in
  let profit_probability :=
    0.3 * F.min (edge_percent / 20) 1 +
    0.2 * (1 - PrimFloat.abs (delta - 0.5)) +
    0.2 * F.min (F.of_Z volume / 2000) 1 +
    0.1 * F.min (F.of_Z open_interest / 10000) 1 +
    0.1 * F.min (F.of_Z days_to_expiry / 60) 1 +
    0.1 * noise in
  let is_profitable := 0.5 <? profit_probability in
  ({| edge_percent := edge_percent; delta := delta; gamma := gamma;
      vega := vega; theta := theta; volume := volume;
      open_interest := open_interest; days_to_expiry := days_to_expiry;
      label := if is_profitable then 1%Z else 0%Z |}, g).

Fixpoint draw_samples (n : nat) (g : rng_state R)
    : list TrainingExample * rng_state R :=
  match n with
  | O => ([], g)
  | S n' =>
      let '(row, g) := draw_sample g in
      let '(rows, g) := draw_samples n' g in
      (row :: rows, g)
  end.

(** [generate_training_data(num_samples)], run with the global
    generator in state [g]: returns the frame and the state left. *)
Definition generate_training_data (num_samples : Z) (g : rng_state R)
    : list TrainingExample * rng_state R :=
  let g := np_seed R 42%Z in
  draw_samples (Z.to_nat num_samples) g.

(** [train(df)]: the state of the object, of the generator and of the
    disk when it returns.  What an exception leaves behind is not
    tracked. *)
Definition train (self : SignalClassifier)
    (df : option (list TrainingExample)) (g : rng_state R) (fs : disk)
    : result (float * SignalClassifier * rng_state R * disk) :=
  let '(df, g) :=
    match df with
    | None => generate_training_data 10000%Z g
    | Some df => (df, g)
    end in
  fit <- sk_fit df ;;
  _ <- makedirs (dirname (model_path self)) ;;
  let fs := joblib_dump (fitted_model fit) (model_path self) fs in
  let fs := joblib_dump (fitted_scaler fit)
                        (scaler_path (model_path self)) fs in
  Ok (accuracy fit,
      {| model_path := model_path self;
         model := Some (fitted_model fit);
         scaler := Some (fitted_scaler fit);
         is_trained := true |},
      g, fs).

(** [predict(signal_features)] *)
Definition predict (self : SignalClassifier) (signal_features : signal_input)
    : result PredictionResult :=
  if negb (is_trained self)
  then Raise (ValueError "Model not trained. Call train() first.")
  else
    signal_features <-
      match signal_features with
      | SigStr s => json_loads s
      | SigDict d => Ok d
      end ;;
    df <- select_columns signal_features feature_cols ;;
    X_scaled <- call (scaler self) "transform"
                     (fun o => obj_transform o df) ;;
    proba <- call (model self) "predict_proba"
                  (fun o => obj_predict_proba o X_scaled) ;;
    prob_profitable <- getitem proba 1 ;;
    prediction <- call (model self) "predict"
                       (fun o => obj_predict o X_scaled) ;;
    Ok {| is_profitable := negb (prediction =? 0)%Z;
          confidence := prob_profitable;
          recommendation :=
            if 0.7 <? prob_profitable then TRADE else AVOID |}.
End Program.

End signal_classifier.

(** ** [ml/volatility_predictor.py] *)

Module volatility_predictor.

(** A row of the surface table; the columns the program reads. *)
Record Row : Type := {
  date : string;
  strike : float;
  implied_vol : float;
  volume : float
}.

Definition DataFrame : Type := list Row.

(** The CSV files, already parsed into tables. *)
Definition csv_store : Type := string -> option DataFrame.

Definition read_csv (csvs : csv_store) (csv_path : string) : result DataFrame :=
  match csvs csv_path with
  | Some df => Ok df
  | None => Raise (FileNotFoundError csv_path)
  end.

(** Loaded objects through their methods, on two-dimensional arrays. *)
Record pyobj : Type := {
  obj_transform : list (list float) -> result (list (list float));
  obj_predict : list (list float) -> result (list (list float))
}.

(** A fresh [MinMaxScaler()]: nothing fitted, [transform] refuses. *)
Definition MinMaxScaler : pyobj :=
  {| obj_transform := fun _ => Raise NotFittedError;
     obj_predict := fun _ => Raise (AttributeError "predict") |}.

Definition call {A : Type} (o : option pyobj) (name : string)
    (method : pyobj -> result A) : result A :=
  match o with
  | Some o => method o
  | None => Raise (AttributeError name)
  end.

Inductive file : Type :=
| Stored (o : pyobj)
| Garbage.

Definition disk : Type := string -> option file.

Definition path_exists (fs : disk) (p : string) : bool :=
  match fs p with Some _ => true | None => false end.

(** [tf.keras.models.load_model] and [joblib.load] *)
Definition load (fs : disk) (p : string) : result pyobj :=
  match fs p with
  | Some (Stored o) => Ok o
  | Some Garbage => Raise (UnpicklingError p)
  | None => Raise (FileNotFoundError p)
  end.

Record VolatilityPredictor : Type := {
  model_path : string;
  model : option pyobj;
  scaler : pyobj;
  is_trained : bool
}.

Definition default_model_path : string := "models/volatility_predictor.h5".

Definition scaler_path (model_path : string) : string :=
  replace ".h5" "_scaler.pkl" model_path.

(** [VolatilityPredictor.__init__] *)
Definition __init__ (fs : disk) (model_path : string) : VolatilityPredictor :=
  let self := {| model_path := model_path; model := None;
                 scaler := MinMaxScaler; is_trained := false |} in
  if path_exists fs model_path then
    match load fs model_path with
    | Raise _ => self
    | Ok m =>
        let self := {| model_path := model_path; model := Some m;
                       scaler := MinMaxScaler; is_trained := false |} in
        if path_exists fs (scaler_path model_path) then
          match load fs (scaler_path model_path) with
          | Raise _ => self
          | Ok s => {| model_path := model_path; model := Some m;
                       scaler := s; is_trained := true |}
          end
        else {| model_path := model_path; model := Some m;
                scaler := MinMaxScaler; is_trained := true |}
    end
  else self.

(** [df.sort_values(['date', 'strike'])]: a stable sort, NaN strikes
    last within a date. *)
Definition strike_le (a b : float) : bool :=
  if PrimFloat.is_nan b then true
  else if PrimFloat.is_nan a then false
  else PrimFloat.leb a b.

Definition row_le (r1 r2 : Row) : bool :=
  String.ltb (date r1) (date r2)
  || (String.eqb (date r1) (date r2) && strike_le (strike r1) (strike r2)).

Fixpoint insert_row (r : Row) (l : DataFrame) : DataFrame :=
  match l with
  | [] => [r]
  | r' :: l' => if row_le r r' then r :: r' :: l' else r' :: insert_row r l'
  end.

Definition sort_values (df : DataFrame) : DataFrame :=
  fold_right insert_row [] df.

(** [Series.unique()]: the distinct values in order of first appearance. *)
Fixpoint unique (l : list string) : list string :=
  match l with
  | [] => []
  | x :: l' => x :: filter (fun y => negb (String.eqb y x)) (unique l')
  end.

(** [sorted] on strings: insertion in the order of character codes. *)
Fixpoint insert_str (x : string) (l : list string) : list string :=
  match l with
  | [] => [x]
  | y :: l' => if String.leb x y then x :: y :: l' else y :: insert_str x l'
  end.

Definition sorted (l : list string) : list string :=
  fold_right insert_str [] l.

(** [grouped.get_group(date)] *)
Definition get_group (df : DataFrame) (d : string) : result DataFrame :=
  match filter (fun r => String.eqb (date r) d) df with
  | [] => Raise (KeyError [d])
  | rows => Ok rows
  end.

(** The body of the inner loop: the two numbers a day contributes. *)
Definition day_features (grouped : DataFrame) (d : string)
    : result (list float) :=
  day_data <- get_group grouped d ;;
  let daily_iv := F.mean (map implied_vol day_data) in
  let daily_volume := F.sum (map volume day_data) in
  Ok [daily_iv; daily_volume].

(** The body of the outer loop, for window start [i]. *)
Definition window (grouped : DataFrame) (dates : list string)
    (sequence_length i : Z) : result (list float * float) :=
  sequence_data <-
    mapM (fun j => d <- getitem dates (i + j) ;; day_features grouped d)
         (range sequence_length) ;;
  next_date <- getitem dates (i + sequence_length) ;;
  next_day_data <- get_group grouped next_date ;;
  let target_iv := F.mean_skipna (map implied_vol next_day_data) in
  Ok (List.concat sequence_data, target_iv).

(** [prepare_data] after the table is read. *)
Definition prepare_frame (df : DataFrame) (sequence_length : Z)
    : result (list (list float) * list float) :=
  let df := sort_values df in
  let dates := sorted (unique (map date df)) in
  ws <- mapM (window df dates sequence_length)
             (range (len dates - sequence_length - 1)) ;;
  Ok (map fst ws, map snd ws).

Definition prepare_data (csvs : csv_store) (csv_path : string)
    (sequence_length : Z) : result (list (list float) * list float) :=
  df <- read_csv csvs csv_path ;;
  prepare_frame df sequence_length.

Inductive Direction : Type := UP | DOWN.

Record PredictionResult : Type := {
  current_avg_iv : float;
  predicted_avg_iv : float;
  change_percent : float;
  direction : Direction
}.

(** [predict(csv_path)] *)
Definition predict (csvs : csv_store) (self : VolatilityPredictor)
    (csv_path : string) : result PredictionResult :=
  if negb (is_trained self)
  then Raise (ValueError "Model not trained. Call train() first.")
  else
    df <- read_csv csvs csv_path ;;
    Xy <- prepare_data csvs csv_path 10 ;;
    let X := fst Xy in
    if (len X =? 0)%Z
    then Raise (ValueError "Not enough data for prediction")
    else
      let recent_sequence := last_slice X in
      X_scaled <- obj_transform (scaler self) recent_sequence ;;
      out <- call (model self) "predict" (fun o => obj_predict o X_scaled) ;;
      row <- getitem out 0 ;;
      predicted_iv <- getitem row 0 ;;
      let current_iv := F.mean_skipna (map implied_vol df) in
      Ok {| current_avg_iv := current_iv;
            predicted_avg_iv := predicted_iv;
            change_percent :=
              ((predicted_iv - current_iv) / current_iv * 100)%float;
            direction :=
              if PrimFloat.ltb current_iv predicted_iv then UP else DOWN |}.

(** *** Vocabulary for the properties of the windows *)

(** The sorted distinct dates, as [prepare_data] computes them. *)
Definition dates_of (df : DataFrame) : list string :=
  sorted (unique (map date (sort_values df))).

(** The number of distinct dates of a table. *)
Definition num_distinct_days (df : DataFrame) : Z :=
  len (nodup string_dec (map date df)).

(** The rows of one date, and the two daily aggregates. *)
Definition day_rows (df : DataFrame) (d : string) : DataFrame :=
  filter (fun r => String.eqb (date r) d) (sort_values df).

Definition mean_iv (df : DataFrame) (d : string) : float :=
  F.mean (map implied_vol (day_rows df d)).

Definition total_volume (df : DataFrame) (d : string) : float :=
  F.sum (map volume (day_rows df d)).

Definition day_pair (df : DataFrame) (d : string) : list float :=
  [mean_iv df d; total_volume df d].

(** The target a date gives: its mean implied vol as pandas computes it. *)
Definition target_iv (df : DataFrame) (d : string) : float :=
  F.mean_skipna (map implied_vol (day_rows df d)).

(** The dates at indices [i .. i+n-1]. *)
Definition days_slice (df : DataFrame) (i n : nat) : list string :=
  firstn n (skipn i (dates_of df)).

(** The number of windows for a window length [L]. *)
Definition windows_of (df : DataFrame) (L : nat) : nat :=
  List.length (dates_of df) - L - 1.

(** The two most recent dates. *)
Definition latest_two (df : DataFrame) : list string :=
  skipn (List.length (dates_of df) - 2) (dates_of df).

(** Two rows that agree on date and strike, and on everything unless
    their date is one of [ds]. *)
Definition same_outside (ds : list string) (r r' : Row) : Prop :=
  date r = date r' /\ strike r = strike r' /\ (In (date r) ds \/ r = r').

End volatility_predictor.

(** ** Liquidity fields in [py/fetch_options.py] and [fetch_multi_options.py] *)

Module fetch_options.

(** A row of the option chain as the data provider returns it. *)
Record ChainRow : Type := {
  row_strike : float;
  row_bid : float;
  row_ask : float;
  row_volume : float;
  row_openInterest : float
}.

Inductive OptionType : Type := Call | Put.

(** An entry of [data["options"]]. *)
Record OptionRecord : Type := {
  strike : float;
  bid : float;
  ask : float;
  volume : Z;
  open_interest : Z;
  option_type : OptionType
}.

(** [int(x) if x == x else 0] *)
Definition liquidity (x : float) : result Z :=
  if PrimFloat.eqb x x then F.to_int x else Ok 0.

(** The body of the loops over calls and puts: [None] when the row is
    skipped. *)
Definition option_record (ty : OptionType) (row : ChainRow)
    : result (option OptionRecord) :=
  if PrimFloat.ltb 0 (row_bid row) && PrimFloat.ltb 0 (row_ask row) then
    v <- liquidity (row_volume row) ;;
    oi <- liquidity (row_openInterest row) ;;
    Ok (Some {| strike := row_strike row; bid := row_bid row;
                ask := row_ask row; volume := v; open_interest := oi;
                option_type := ty |})
  else Ok None.

End fetch_options.

(** ** Concrete objects used to run the programs *)

Module fixtures.
Import signal_classifier.
#[local] Open Scope float_scope.

(** Conversion of a numeric cell to float64. *)
Definition cell (v : pyval) : result float :=
  match v with
  | PyFloat f => Ok f
  | PyInt z => Ok (F.of_Z z)
  | PyBool b => Ok (if b then 1 else 0)
  | PyStr _ | PyNone => Raise (ValueError "could not convert to float")
  end.

Fixpoint standardize (mean_ scale_ x : list float) : result (list float) :=
  match mean_, scale_, x with
  | [], [], [] => Ok []
  | m :: mean_, s :: scale_, v :: x =>
      r <- standardize mean_ scale_ x ;; Ok ((v - m) / s :: r)
  | _, _, _ => Raise (ValueError "X has a different number of features")
  end.

(** A fitted [StandardScaler] on numeric rows. *)
Definition StandardScaler (mean_ scale_ : list float) : pyobj :=
  {| obj_transform := fun row =>
       x <- mapM cell row ;; standardize mean_ scale_ x;
     obj_predict_proba := fun _ => Raise (AttributeError "predict_proba");
     obj_predict := fun _ => Raise (AttributeError "predict") |}.

(** A forest of one tree of depth one: a split of feature [k] at
    threshold [t], with the share of profitable training rows in each
    leaf. *)
Definition Stump (k : nat) (t p_left p_right : float) : pyobj :=
  let leaf x :=
    match nth_error x k with
    | Some v => Ok (if v <=? t then p_left else p_right)
    | None => Raise (ValueError "X has a different number of features")
    end in
  {| obj_transform := fun _ => Raise (AttributeError "transform");
     obj_predict_proba := fun x => p <- leaf x ;; Ok [1 - p; p];
     obj_predict := fun x => p <- leaf x ;; Ok (if 1 - p <? p then 1%Z else 0%Z) |}.

Definition unit_scaler : pyobj :=
  StandardScaler [0; 0; 0; 0; 0; 0; 0; 0] [1; 1; 1; 1; 1; 1; 1; 1].

(** The record of the usage line of the script. *)
Definition sample_signal : pydict :=
  [("edge_percent", PyFloat 15.5); ("delta", PyFloat 0.65);
   ("gamma", PyFloat 0.004); ("vega", PyFloat 45.2);
   ("theta", PyFloat (-8.5)); ("volume", PyInt 1200);
   ("open_interest", PyInt 8500); ("days_to_expiry", PyInt 45)].

Definition no_json (s : string) : result pydict :=
  Raise (ValueError "Expecting value").

Definition service (m : pyobj) : SignalClassifier :=
  {| model_path := default_model_path; model := Some m;
     scaler := Some unit_scaler; is_trained := true |}.

Definition empty_disk : disk := fun _ => None.

(** The same record with the volume cell left to the caller: a NaN when
    no figure is known, a zero, or a count. *)
Definition with_volume (v : pyval) : pydict :=
  [("edge_percent", PyFloat 15.5); ("delta", PyFloat 0.65);
   ("gamma", PyFloat 0.004); ("vega", PyFloat 45.2);
   ("theta", PyFloat (-8.5)); ("volume", v);
   ("open_interest", PyInt 8500); ("days_to_expiry", PyInt 45)].

(** A stand-in for NumPy's generator, a linear congruential sequence, to
    run [generate_training_data] and [train] with. *)
Definition lcg (s : Z) : Z := ((s * 1103515245 + 12345) mod 2147483648)%Z.

Definition toy_random : NumpyRandom :=
  {| rng_state := Z;
     np_seed := fun seed => seed;
     np_normal := fun mu sigma s =>
       (mu + sigma * (F.of_Z (s mod 7 - 3) / 3), lcg s);
     np_poisson := fun lam s => ((lam + s mod 11 - 5)%Z, lcg s);
     np_randint := fun lo hi s => ((lo + s mod (hi - lo))%Z, lcg s);
     np_random := fun s => (F.of_Z (s mod 1000) / 1000, lcg s) |}.

(** A fit that returns the same scaler and forest for every frame. *)
Definition fit_stump (df : list TrainingExample) : result Fitted :=
  Ok {| fitted_scaler := unit_scaler;
        fitted_model := Stump 0 10 0.2 0.9;
        accuracy := 0.75 |}.

(** A model path with the extension joblib's documentation uses. *)
Definition joblib_model_path : string := "models/signal_classifier.joblib".

(** Disks that hold a model file and no transform file. *)
Definition model_only_disk : disk :=
  fun p => if String.eqb p default_model_path
           then Some (Pickled (Stump 0 10 0.2 0.9)) else None.

Definition keras_stub : volatility_predictor.pyobj :=
  {| volatility_predictor.obj_transform :=
       fun _ => Raise (AttributeError "transform");
     volatility_predictor.obj_predict := fun _ => Ok [[0.25]] |}.

Definition h5_only_disk : volatility_predictor.disk :=
  fun p => if String.eqb p volatility_predictor.default_model_path
           then Some (volatility_predictor.Stored keras_stub) else None.

(** Surface tables with one row per date. *)
Definition surface_row (d : string) (iv vol : float) : volatility_predictor.Row :=
  {| volatility_predictor.date := d;
     volatility_predictor.strike := 100;
     volatility_predictor.implied_vol := iv;
     volatility_predictor.volume := vol |}.

Definition five_days : volatility_predictor.DataFrame :=
  [surface_row "2023-01-01" 0.30 400; surface_row "2023-01-02" 0.31 410;
   surface_row "2023-01-03" 0.32 420; surface_row "2023-01-04" 0.33 430;
   surface_row "2023-01-05" 0.34 440].

(** Thirteen dates; the implied vol and volume of the last two are
    arguments. *)
Definition thirteen_days (iv12 vol12 iv13 vol13 : float)
    : volatility_predictor.DataFrame :=
  [surface_row "2023-01-01" 0.30 400; surface_row "2023-01-02" 0.31 410;
   surface_row "2023-01-03" 0.32 420; surface_row "2023-01-04" 0.33 430;
   surface_row "2023-01-05" 0.34 440; surface_row "2023-01-06" 0.35 450;
   surface_row "2023-01-07" 0.36 460; surface_row "2023-01-08" 0.37 470;
   surface_row "2023-01-09" 0.38 480; surface_row "2023-01-10" 0.39 490;
   surface_row "2023-01-11" 0.40 500; surface_row "2023-01-12" iv12 vol12;
   surface_row "2023-01-13" iv13 vol13].

Definition one_csv (path : string) (df : volatility_predictor.DataFrame)
    : volatility_predictor.csv_store :=
  fun p => if String.eqb p path then Some df else None.

(** A fitted range scaler that leaves the row as it is, and a trained
    forecaster that holds it. *)
Definition identity_scaler : volatility_predictor.pyobj :=
  {| volatility_predictor.obj_transform := fun X => Ok X;
     volatility_predictor.obj_predict :=
       fun _ => Raise (AttributeError "predict") |}.

(** A sequence model that answers the first input of the window. *)
Definition first_input_model : volatility_predictor.pyobj :=
  {| volatility_predictor.obj_transform :=
       fun _ => Raise (AttributeError "transform");
     volatility_predictor.obj_predict :=
       fun X => Ok (map (firstn 1) X) |}.

Definition forecaster : volatility_predictor.VolatilityPredictor :=
  {| volatility_predictor.model_path := volatility_predictor.default_model_path;
     volatility_predictor.model := Some first_input_model;
     volatility_predictor.scaler := identity_scaler;
     volatility_predictor.is_trained := true |}.
End fixtures.

(** * Properties *)

(** Case analysis on the head of a chain of binds in a hypothesis. *)
Ltac bind_inv H :=
  match type of H with
  | bind ?m _ = Ok _ =>
      let E := fresh "E" in
      destruct m eqn:E; cbn [bind] in H; [ | discriminate H ]
  end.

Lemma mapM_ext {A B : Type} (f g : A -> result B) (l : list A) :
  (forall a, In a l -> f a = g a) -> mapM f l = mapM g l.
Proof.
  induction l as [ | a l IH ]; intros Hfg; cbn [mapM]; [ reflexivity | ].
  rewrite (Hfg a (or_introl eq_refl)), IH; [ reflexivity | ].
  intros b Hb. apply Hfg. right. exact Hb.
Qed.

Lemma mapM_map {A B : Type} (f : A -> result B) (g : A -> B) (l : list A) :
  (forall a, In a l -> f a = Ok (g a)) -> mapM f l = Ok (map g l).
Proof.
  induction l as [ | a l IH ]; intros Hfg; cbn [mapM map]; [ reflexivity | ].
  rewrite (Hfg a (or_introl eq_refl)). cbn [bind].
  rewrite IH; [ reflexivity | ].
  intros b Hb. apply Hfg. right. exact Hb.
Qed.

Module ClassifierFacts.
Import signal_classifier.

Section Predict.
Variable json_loads : string -> result pydict.

(** What a successful [predict] went through. *)
Lemma predict_ok_inv self x r :
  predict json_loads self x = Ok r ->
  exists m X proba prediction,
    is_trained self = true /\ model self = Some m /\
    obj_predict_proba m X = Ok proba /\
    getitem proba 1 = Ok (confidence r) /\
    obj_predict m X = Ok prediction /\
    r = {| is_profitable := negb (prediction =? 0)%Z;
           confidence := confidence r;
           recommendation :=
             if PrimFloat.ltb 0.7 (confidence r) then TRADE else AVOID |}.
Proof.
  unfold predict. intros H.
  destruct (is_trained self) eqn:Ht; cbn [negb] in H; [ | discriminate H ].
  bind_inv H. bind_inv H. bind_inv H.
  destruct (model self) as [ m | ] eqn:Hm; cbn [call] in H;
    [ | discriminate H ].
  bind_inv H. bind_inv H. bind_inv H.
  injection H as <-. cbn [confidence].
  exists m, a1, a2, a4. repeat split; assumption.
Qed.

(** The result depends on the record through the eight named cells
    only. *)
Lemma predict_depends_on_features self d d' :
  (forall c, In c feature_cols -> dict_get d' c = dict_get d c) ->
  select_columns d' feature_cols = select_columns d feature_cols /\
  predict json_loads self (SigDict d') = predict json_loads self (SigDict d).
Proof.
  intros Hget.
  assert (Hsel : select_columns d' feature_cols
                 = select_columns d feature_cols).
  { unfold select_columns, missing_cols.
    assert (Hrow : forall cols, incl cols feature_cols ->
              frame_row d' cols = frame_row d cols).
    { induction cols as [ | c cols IH ]; intros Hin; cbn [frame_row];
        [ reflexivity | ].
      rewrite (Hget c (Hin c (or_introl eq_refl))), IH; [ reflexivity | ].
      intros c' Hc'. apply Hin. right. exact Hc'. }
    rewrite (Hrow feature_cols (incl_refl _)).
    rewrite (filter_ext_in
               (fun c => match dict_get d' c with
                         | Some _ => false | None => true end)
               (fun c => match dict_get d c with
                         | Some _ => false | None => true end));
      [ reflexivity | ].
    intros c Hc. rewrite (Hget c Hc). reflexivity. }
  split; [ exact Hsel | ].
  unfold predict. cbn [bind]. rewrite Hsel. reflexivity.
Qed.
End Predict.

Lemma dict_get_In d k v : dict_get d k = Some v -> In (k, v) d.
Proof.
  induction d as [ | [k' v'] d IH ]; cbn [dict_get]; [ discriminate | ].
  destruct (String.eqb_spec k' k) as [ -> | Hne ].
  - intros [= ->]. left. reflexivity.
  - intros H. right. apply IH. exact H.
Qed.

Lemma In_dict_get d k v :
  NoDup (dict_keys d) -> In (k, v) d -> dict_get d k = Some v.
Proof.
  unfold dict_keys.
  induction d as [ | [k' v'] d IH ]; cbn [dict_get map fst];
    intros Hnd Hin; [ destruct Hin | ].
  inversion Hnd as [ | ? ? Hnotin Hnd' ]; subst.
  destruct Hin as [ [= -> ->] | Hin ].
  - rewrite String.eqb_refl. reflexivity.
  - destruct (String.eqb_spec k' k) as [ -> | Hne ].
    + exfalso. apply Hnotin. apply (in_map fst) in Hin. exact Hin.
    + apply IH; assumption.
Qed.

(** A dict read by key does not see the order of its items. *)
Lemma dict_get_Permutation d d' k :
  NoDup (dict_keys d) -> Permutation d d' -> dict_get d' k = dict_get d k.
Proof.
  intros Hnd Hp.
  assert (Hnd' : NoDup (dict_keys d')).
  { unfold dict_keys. eapply Permutation_NoDup; [ | exact Hnd ].
    apply Permutation_map. exact Hp. }
  destruct (dict_get d k) as [ v | ] eqn:Hd.
  - apply In_dict_get; [ exact Hnd' | ].
    eapply Permutation_in; [ exact Hp | ]. apply dict_get_In. exact Hd.
  - destruct (dict_get d' k) as [ v' | ] eqn:Hd'; [ | reflexivity ].
    apply dict_get_In in Hd'.
    apply (Permutation_in _ (Permutation_sym Hp)) in Hd'.
    apply (In_dict_get _ _ _ Hnd) in Hd'. congruence.
Qed.

Lemma dict_get_restrict d c :
  In c feature_cols -> dict_get (restrict d) c = dict_get d c.
Proof.
  intros Hc. unfold restrict.
  induction d as [ | [k v] d IH ]; cbn [filter dict_get fst];
    [ reflexivity | ].
  destruct (existsb (String.eqb k) feature_cols) eqn:Hk.
  - cbn [dict_get]. rewrite IH. reflexivity.
  - rewrite IH. destruct (String.eqb_spec k c) as [ -> | Hne ];
      [ | reflexivity ].
    exfalso. apply Bool.not_true_iff_false in Hk. apply Hk.
    apply existsb_exists. exists c. split; [ exact Hc | ].
    apply String.eqb_refl.
Qed.

Lemma frame_row_spec d cols row :
  frame_row d cols = Some row <->
  Forall2 (fun c v => dict_get d c = Some v) cols row.
Proof.
  revert row. induction cols as [ | c cols IH ]; intros row;
    cbn [frame_row].
  - split.
    + intros [= <-]. constructor.
    + intros H. inversion H. reflexivity.
  - split.
    + destruct (dict_get d c) as [ v | ] eqn:Hv; [ | discriminate ].
      destruct (frame_row d cols) as [ vs | ]; [ | discriminate ].
      intros [= <-]. constructor; [ exact Hv | ]. apply IH. reflexivity.
    + intros H. inversion H as [ | ? v ? vs Hv Hvs ]; subst.
      rewrite Hv. apply IH in Hvs. rewrite Hvs. reflexivity.
Qed.

Lemma select_columns_spec d cols row :
  select_columns d cols = Ok row <->
  Forall2 (fun c v => dict_get d c = Some v) cols row.
Proof.
  rewrite <- frame_row_spec. unfold select_columns.
  destruct (frame_row d cols); split; congruence.
Qed.

Lemma frame_row_total d cols :
  (forall c, In c cols -> In c (dict_keys d)) ->
  exists row, frame_row d cols = Some row.
Proof.
  induction cols as [ | c cols IH ]; intros Hin; cbn [frame_row].
  - exists []. reflexivity.
  - destruct IH as [ vs Hvs ].
    { intros c' Hc'. apply Hin. right. exact Hc'. }
    assert (Hc : exists v, dict_get d c = Some v).
    { specialize (Hin c (or_introl eq_refl)). unfold dict_keys in Hin.
      clear - Hin. induction d as [ | [k v] d IHd ]; [ destruct Hin | ].
      cbn [dict_get]. destruct (String.eqb_spec k c) as [ -> | Hne ].
      - exists v. reflexivity.
      - apply IHd. destruct Hin as [ Hk | Hin ]; [ | exact Hin ].
        cbn [fst] in Hk. congruence. }
    destruct Hc as [ v Hv ]. rewrite Hv, Hvs. exists (v :: vs). reflexivity.
Qed.

(** C1. Whenever [predict] returns, the confidence it reports is entry 1
    of the probability row the model gave, and the recommendation is
    TRADE exactly when that confidence is strictly greater than 0.7; a
    confidence equal to 0.7 gives AVOID. *)
Theorem predict_recommendation_threshold
    (json_loads : string -> result pydict) (self : SignalClassifier)
    (x : signal_input) (r : PredictionResult) :
  predict json_loads self x = Ok r ->
  (exists m X proba,
      model self = Some m /\ obj_predict_proba m X = Ok proba /\
      getitem proba 1 = Ok (confidence r)) /\
  (recommendation r = TRADE <-> PrimFloat.ltb 0.7 (confidence r) = true) /\
  (confidence r = 0.7%float -> recommendation r = AVOID).
Proof.
  intros H. apply predict_ok_inv in H.
  destruct H as (m & X & proba & prediction & _ & Hm & Hp & Hg & _ & Hr).
  split; [ exists m, X, proba; repeat split; assumption | ].
  rewrite Hr. cbn [recommendation confidence]. split.
  - destruct (PrimFloat.ltb 0.7 (confidence r)); split;
      intros; congruence.
  - intros ->. reflexivity.
Qed.

Lemma predict_recommendation_threshold_witness :
  let r := {| is_profitable := true; confidence := 0.7%float;
              recommendation := AVOID |} in
  predict fixtures.no_json (fixtures.service (fixtures.Stump 0 10 0.2 0.7))
          (SigDict fixtures.sample_signal) = Ok r /\
  (recommendation r = TRADE <-> PrimFloat.ltb 0.7 (confidence r) = true) /\
  (confidence r = 0.7%float -> recommendation r = AVOID).
Proof.
  intros r.
  assert (H : predict fixtures.no_json
                (fixtures.service (fixtures.Stump 0 10 0.2 0.7))
                (SigDict fixtures.sample_signal) = Ok r)
    by (vm_compute; reflexivity).
  split; [ exact H | ].
  exact (proj2 (predict_recommendation_threshold _ _ _ _ H)).
Defined.

(** C8. The items of a record that holds the eight schema fields can be
    listed in any order: [predict] assembles the same row, whose cells
    are the values bound to the names of [feature_cols] in that fixed
    order, and returns the same result. *)
Theorem predict_binds_fields_by_name
    (json_loads : string -> result pydict) (self : SignalClassifier)
    (d d' : pydict) :
  NoDup (dict_keys d) ->
  Permutation d d' ->
  (forall c, In c feature_cols -> In c (dict_keys d)) ->
  exists row,
    select_columns d feature_cols = Ok row /\
    select_columns d' feature_cols = Ok row /\
    Forall2 (fun c v => In (c, v) d) feature_cols row /\
    predict json_loads self (SigDict d') = predict json_loads self (SigDict d).
Proof.
  intros Hnd Hperm Hkeys.
  destruct (frame_row_total d feature_cols Hkeys) as [ row Hrow ].
  destruct (predict_depends_on_features json_loads self d d') as [ Hsel Hpred ].
  { intros c _. apply dict_get_Permutation; assumption. }
  assert (Hd : select_columns d feature_cols = Ok row).
  { unfold select_columns. rewrite Hrow. reflexivity. }
  exists row. split; [ exact Hd | ]. split; [ congruence | ].
  split; [ | exact Hpred ].
  apply select_columns_spec in Hd.
  eapply Forall2_impl; [ | exact Hd ].
  intros c v Hv. apply dict_get_In. exact Hv.
Qed.

Lemma sample_signal_keys :
  NoDup (dict_keys fixtures.sample_signal) /\
  (forall c, In c feature_cols -> In c (dict_keys fixtures.sample_signal)).
Proof.
  split.
  - repeat (constructor; [ cbn; intuition discriminate | ]). constructor.
  - intros c Hc. exact Hc.
Defined.

Lemma predict_binds_fields_by_name_witness :
  NoDup (dict_keys fixtures.sample_signal) /\
  Permutation fixtures.sample_signal (rev fixtures.sample_signal) /\
  exists row,
    select_columns fixtures.sample_signal feature_cols = Ok row /\
    select_columns (rev fixtures.sample_signal) feature_cols = Ok row /\
    Forall2 (fun c v => In (c, v) fixtures.sample_signal) feature_cols row /\
    predict fixtures.no_json (fixtures.service (fixtures.Stump 0 10 0.2 0.9))
            (SigDict (rev fixtures.sample_signal))
    = predict fixtures.no_json
              (fixtures.service (fixtures.Stump 0 10 0.2 0.9))
              (SigDict fixtures.sample_signal).
Proof.
  split; [ exact (proj1 sample_signal_keys) | ].
  split; [ apply Permutation_rev | ].
  exact (predict_binds_fields_by_name _ _ _ _
           (proj1 sample_signal_keys) (Permutation_rev _)
           (proj2 sample_signal_keys)).
Defined.

(** C10. Keys outside the schema have no influence: the record cut down
    to the eight schema fields reads the same under every schema name,
    yields the same row (or the same [KeyError]) and the same result of
    [predict]. *)
Theorem predict_ignores_extra_fields
    (json_loads : string -> result pydict) (self : SignalClassifier)
    (d : pydict) :
  incl (dict_keys (restrict d)) feature_cols /\
  (forall c, In c feature_cols -> dict_get (restrict d) c = dict_get d c) /\
  select_columns (restrict d) feature_cols = select_columns d feature_cols /\
  predict json_loads self (SigDict (restrict d))
  = predict json_loads self (SigDict d).
Proof.
  split.
  { intros k Hk. unfold dict_keys, restrict in Hk.
    apply in_map_iff in Hk. destruct Hk as ([k' v] & <- & Hin).
    apply filter_In in Hin. destruct Hin as [ _ Hex ].
    apply existsb_exists in Hex. destruct Hex as (c & Hc & Heq).
    cbn [fst] in *. apply String.eqb_eq in Heq. subst. exact Hc. }
  split; [ intros c Hc; apply dict_get_restrict; exact Hc | ].
  apply predict_depends_on_features.
  intros c Hc. apply dict_get_restrict. exact Hc.
Qed.

(** C5, as the claim words it, fails: a NaN volume is not replaced by
    zero when [predict] builds the row.  The cell handed to the
    transform is the NaN itself, and a loaded model can tell it from a
    zero. *)
Lemma nan_volume_not_replaced_by_zero :
  let self := fixtures.service (fixtures.Stump 5 1000 0.2 0.9) in
  select_columns (fixtures.with_volume (PyFloat nan)) feature_cols
  = Ok [PyFloat 15.5; PyFloat 0.65; PyFloat 0.004; PyFloat 45.2;
        PyFloat (-8.5); PyFloat nan; PyInt 8500; PyInt 45] /\
  (exists r, predict fixtures.no_json self
               (SigDict (fixtures.with_volume (PyFloat nan))) = Ok r /\
             recommendation r = TRADE) /\
  (exists r, predict fixtures.no_json self
               (SigDict (fixtures.with_volume (PyInt 0))) = Ok r /\
             recommendation r = AVOID).
Proof.
  split; [ reflexivity | ].
  split; eexists; (split; [ vm_compute; reflexivity | reflexivity ]).
Qed.

(** C5, amended.  The replacement of a NaN liquidity figure by zero is
    done by the option fetchers when they build a record from the
    provider's row; [predict] hands the volume and open-interest cells
    of its record to the transform as they are. *)
Theorem nan_liquidity_zeroed_by_fetcher_only
    (x : float) (ty : fetch_options.OptionType)
    (chain : fetch_options.ChainRow) (d : pydict) (row : list pyval) :
  PrimFloat.is_nan x = true ->
  PrimFloat.ltb 0 (fetch_options.row_bid chain) = true ->
  PrimFloat.ltb 0 (fetch_options.row_ask chain) = true ->
  fetch_options.row_volume chain = x ->
  fetch_options.row_openInterest chain = x ->
  select_columns d feature_cols = Ok row ->
  fetch_options.liquidity x = Ok 0%Z /\
  (exists rec, fetch_options.option_record ty chain = Ok (Some rec) /\
               fetch_options.volume rec = 0%Z /\
               fetch_options.open_interest rec = 0%Z) /\
  nth_error row 5 = dict_get d "volume" /\
  nth_error row 6 = dict_get d "open_interest".
Proof.
  intros Hnan Hbid Hask Hv Hoi Hsel.
  assert (Hliq : fetch_options.liquidity x = Ok 0%Z).
  { unfold fetch_options.liquidity. unfold PrimFloat.is_nan in Hnan.
    destruct (PrimFloat.eqb x x); [ discriminate Hnan | reflexivity ]. }
  split; [ exact Hliq | ]. split.
  { unfold fetch_options.option_record.
    rewrite Hbid, Hask, Hv, Hoi, Hliq. cbn.
    eexists. split; [ reflexivity | split; reflexivity ]. }
  apply select_columns_spec in Hsel. unfold feature_cols in Hsel.
  repeat match goal with
         | H : Forall2 _ (_ :: _) _ |- _ =>
             inversion H; subst; clear H
         | H : Forall2 _ [] _ |- _ => inversion H; subst; clear H
         end.
  cbn [nth_error]. split; congruence.
Qed.

Lemma nan_liquidity_zeroed_by_fetcher_only_witness :
  let chain := {| fetch_options.row_strike := 250;
                  fetch_options.row_bid := 1.5;
                  fetch_options.row_ask := 1.75;
                  fetch_options.row_volume := nan;
                  fetch_options.row_openInterest := nan |}%float in
  fetch_options.liquidity nan = Ok 0%Z /\
  (exists rec, fetch_options.option_record fetch_options.Call chain
               = Ok (Some rec) /\
               fetch_options.volume rec = 0%Z /\
               fetch_options.open_interest rec = 0%Z) /\
  nth_error [PyFloat 15.5; PyFloat 0.65; PyFloat 0.004; PyFloat 45.2;
             PyFloat (-8.5); PyFloat nan; PyInt 8500; PyInt 45] 5
  = dict_get (fixtures.with_volume (PyFloat nan)) "volume" /\
  nth_error [PyFloat 15.5; PyFloat 0.65; PyFloat 0.004; PyFloat 45.2;
             PyFloat (-8.5); PyFloat nan; PyInt 8500; PyInt 45] 6
  = dict_get (fixtures.with_volume (PyFloat nan)) "open_interest".
Proof.
  intros chain.
  apply (nan_liquidity_zeroed_by_fetcher_only nan fetch_options.Call chain
           (fixtures.with_volume (PyFloat nan))); reflexivity.
Defined.

End ClassifierFacts.

(** ** The generator of the synthetic corpus *)

Module GeneratorFacts.
Import signal_classifier.

Lemma draw_samples_length R n g :
  List.length (fst (draw_samples R n g)) = n.
Proof.
  revert g. induction n as [ | n IH ]; intros g; cbn [draw_samples];
    [ reflexivity | ].
  destruct (draw_sample R g) as [ row g1 ].
  specialize (IH g1). destruct (draw_samples R n g1) as [ rows g2 ].
  cbn [fst List.length] in *. rewrite IH. reflexivity.
Qed.

(** C7. Two runs of the generator with the same sample count produce the
    same corpus, row for row and label for label, whatever state NumPy's
    global generator is in when each run starts: the seed is fixed at 42
    before the first draw.  The corpus has [num_samples] rows. *)
Theorem generate_training_data_reproducible
    (R : NumpyRandom) (num_samples : Z) (g1 g2 : rng_state R) :
  generate_training_data R num_samples g1
  = generate_training_data R num_samples g2 /\
  len (fst (generate_training_data R num_samples g1)) = Z.max 0 num_samples.
Proof.
  split; [ reflexivity | ].
  unfold generate_training_data, len. rewrite draw_samples_length. lia.
Qed.

Example generate_training_data_runs :
  map label (fst (generate_training_data fixtures.toy_random 3 2026)) = [1; 0; 1]
  /\ map volume (fst (generate_training_data fixtures.toy_random 3 7))
     = [1003; 996; 995].
Proof. split; vm_compute; reflexivity. Qed.

End GeneratorFacts.

(** ** Persisted artifacts *)

Module ArtifactFacts.

Section Classifier.
Import signal_classifier.
Variable R : NumpyRandom.
Variable json_loads : string -> result pydict.
Variable sk_fit : list TrainingExample -> result Fitted.

(** What a successful [train] leaves in the object and on the disk. *)
Lemma train_ok_inv self df g fs acc self' g' fs' :
  train R sk_fit self df g fs = Ok (acc, self', g', fs') ->
  exists fit,
    self' = {| model_path := model_path self;
               model := Some (fitted_model fit);
               scaler := Some (fitted_scaler fit);
               is_trained := true |} /\
    fs' = joblib_dump (fitted_scaler fit) (scaler_path (model_path self))
            (joblib_dump (fitted_model fit) (model_path self) fs).
Proof.
  unfold train. intros H.
  destruct (match df with
            | Some df0 => (df0, g)
            | None => generate_training_data R 10000 g
            end) as [ df1 g1 ].
  bind_inv H. bind_inv H. injection H as _ <- _ <-.
  exists a. split; reflexivity.
Qed.

(** When the transform is written to a file of its own, a fresh service
    built from the disk [train] left is the trained service, and predicts
    as it does. *)
Lemma reload_after_train self df g fs acc self' g' fs' x :
  train R sk_fit self df g fs = Ok (acc, self', g', fs') ->
  scaler_path (model_path self) <> model_path self ->
  __init__ fs' (model_path self) = self' /\
  predict json_loads (__init__ fs' (model_path self)) x
  = predict json_loads self' x.
Proof.
  intros H Hne. apply train_ok_inv in H. destruct H as (fit & -> & ->).
  assert (Hinit : __init__
            (joblib_dump (fitted_scaler fit) (scaler_path (model_path self))
               (joblib_dump (fitted_model fit) (model_path self) fs))
            (model_path self)
          = {| model_path := model_path self;
               model := Some (fitted_model fit);
               scaler := Some (fitted_scaler fit);
               is_trained := true |}).
  { unfold __init__, path_exists, joblib_load, joblib_dump.
    rewrite (String.eqb_refl (scaler_path (model_path self))).
    destruct (String.eqb_spec (model_path self)
                              (scaler_path (model_path self))) as [ E | _ ];
      [ exfalso; apply Hne; symmetry; exact E | ].
    rewrite String.eqb_refl. reflexivity. }
  rewrite Hinit. split; reflexivity.
Qed.

(** A service built from a disk whose model file loads and whose
    transform file does not. *)
Lemma init_without_transform fs p m e :
  fs p = Some (Pickled m) ->
  joblib_load fs (scaler_path p) = Raise e ->
  __init__ fs p = {| model_path := p; model := Some m;
                     scaler := None; is_trained := false |}.
Proof.
  intros Hm Hs. unfold __init__, path_exists. unfold joblib_load at 1.
  rewrite Hm, Hs. reflexivity.
Qed.

(** A fresh service scores only if both files were loaded. *)
Lemma init_predict_ok_inv fs p x r :
  predict json_loads (__init__ fs p) x = Ok r ->
  exists m s, joblib_load fs p = Ok m /\
              joblib_load fs (scaler_path p) = Ok s /\
              __init__ fs p = {| model_path := p; model := Some m;
                                 scaler := Some s; is_trained := true |}.
Proof.
  unfold __init__.
  destruct (path_exists fs p);
    [ | unfold predict; cbn; discriminate ].
  destruct (joblib_load fs p) as [ m | ];
    [ | unfold predict; cbn; discriminate ].
  destruct (joblib_load fs (scaler_path p)) as [ s | ];
    [ | unfold predict; cbn; discriminate ].
  intros _. exists m, s. repeat split.
Qed.
End Classifier.

Section Forecaster.
Import volatility_predictor.
Variable csvs : csv_store.

(** With an unfitted scaler [predict] raises on every table. *)
Lemma predict_unfitted_raises self csv_path :
  scaler self = MinMaxScaler ->
  exists e, predict csvs self csv_path = Raise e.
Proof.
  intros Hs. unfold predict.
  destruct (negb (is_trained self)); [ eexists; reflexivity | ].
  destruct (read_csv csvs csv_path) as [ df | e ]; cbn [bind];
    [ | eexists; reflexivity ].
  destruct (prepare_data csvs csv_path 10) as [ Xy | e ]; cbn [bind];
    [ | eexists; reflexivity ].
  destruct (len (fst Xy) =? 0)%Z; [ eexists; reflexivity | ].
  rewrite Hs. cbn. eexists. reflexivity.
Qed.

Lemma init_missing_transform fs p m :
  fs p = Some (Stored m) ->
  fs (scaler_path p) = None ->
  __init__ fs p = {| model_path := p; model := Some m;
                     scaler := MinMaxScaler; is_trained := true |}.
Proof.
  intros Hm Hs. unfold __init__, path_exists, load. rewrite Hm, Hs.
  reflexivity.
Qed.

Lemma init_unreadable_transform fs p m :
  fs p = Some (Stored m) ->
  fs (scaler_path p) = Some Garbage ->
  __init__ fs p = {| model_path := p; model := Some m;
                     scaler := MinMaxScaler; is_trained := false |}.
Proof.
  intros Hm Hs. unfold __init__, path_exists, load. rewrite Hm, Hs.
  reflexivity.
Qed.
End Forecaster.

(** C4, as the claim words it, fails: with the model file on disk and no
    transform file, neither constructor raises.  The classifier comes back
    untrained with the model loaded; the forecaster comes back marked as
    trained, holding the model and a scaler that was never fitted. *)
Lemma load_without_transform_is_not_an_error :
  signal_classifier.__init__ fixtures.model_only_disk
    signal_classifier.default_model_path
  = {| signal_classifier.model_path := "models/signal_classifier.pkl";
       signal_classifier.model := Some (fixtures.Stump 0 10 0.2 0.9);
       signal_classifier.scaler := None;
       signal_classifier.is_trained := false |} /\
  volatility_predictor.__init__ fixtures.h5_only_disk
    volatility_predictor.default_model_path
  = {| volatility_predictor.model_path := "models/volatility_predictor.h5";
       volatility_predictor.model := Some fixtures.keras_stub;
       volatility_predictor.scaler := volatility_predictor.MinMaxScaler;
       volatility_predictor.is_trained := true |}.
Proof. split; reflexivity. Qed.

(** C4, amended.  When the model file loads and the transform file is
    missing or unreadable, the constructors return normally.  The
    classifier is left untrained, with no scaler, and its [predict]
    raises.  The forecaster keeps the loaded model next to its default,
    unfitted scaler, and its [predict] raises on every table.  A freshly
    built classifier that does score has loaded both files. *)
Theorem load_without_transform_never_scores
    (json_loads : string -> result signal_classifier.pydict)
    (fsc : signal_classifier.disk) (pc : string)
    (mc : signal_classifier.pyobj) (e : exn)
    (csvs : volatility_predictor.csv_store)
    (fsv : volatility_predictor.disk) (pv : string)
    (mv : volatility_predictor.pyobj) :
  fsc pc = Some (signal_classifier.Pickled mc) ->
  signal_classifier.joblib_load fsc (signal_classifier.scaler_path pc)
  = Raise e ->
  fsv pv = Some (volatility_predictor.Stored mv) ->
  (fsv (volatility_predictor.scaler_path pv) = None \/
   fsv (volatility_predictor.scaler_path pv)
   = Some volatility_predictor.Garbage) ->
  (signal_classifier.__init__ fsc pc
   = {| signal_classifier.model_path := pc;
        signal_classifier.model := Some mc;
        signal_classifier.scaler := None;
        signal_classifier.is_trained := false |} /\
   forall x,
     signal_classifier.predict json_loads
       (signal_classifier.__init__ fsc pc) x
     = Raise (ValueError "Model not trained. Call train() first.")) /\
  (volatility_predictor.model (volatility_predictor.__init__ fsv pv) = Some mv /\
   volatility_predictor.scaler (volatility_predictor.__init__ fsv pv)
   = volatility_predictor.MinMaxScaler /\
   forall csv_path, exists e',
     volatility_predictor.predict csvs
       (volatility_predictor.__init__ fsv pv) csv_path = Raise e') /\
  (forall fs p x r,
     signal_classifier.predict json_loads (signal_classifier.__init__ fs p) x
     = Ok r ->
     exists m s,
       signal_classifier.joblib_load fs p = Ok m /\
       signal_classifier.joblib_load fs (signal_classifier.scaler_path p)
       = Ok s /\
       signal_classifier.scaler (signal_classifier.__init__ fs p) = Some s).
Proof.
  intros Hmc Hsc Hmv Hsv. split; [ | split ].
  - rewrite (init_without_transform fsc pc mc e Hmc Hsc).
    split; [ reflexivity | ]. intros x. reflexivity.
  - destruct Hsv as [ Hsv | Hsv ].
    + rewrite (init_missing_transform fsv pv mv Hmv Hsv).
      cbn [volatility_predictor.model volatility_predictor.scaler
           volatility_predictor.is_trained].
      split; [ reflexivity | ]. split; [ reflexivity | ].
      intros csv_path. apply predict_unfitted_raises. reflexivity.
    + rewrite (init_unreadable_transform fsv pv mv Hmv Hsv).
      cbn [volatility_predictor.model volatility_predictor.scaler
           volatility_predictor.is_trained].
      split; [ reflexivity | ]. split; [ reflexivity | ].
      intros csv_path. apply predict_unfitted_raises. reflexivity.
  - intros fs p x r Hr.
    destruct (init_predict_ok_inv json_loads fs p x r Hr)
      as (m & s & Hm & Hs & Hinit).
    exists m, s. rewrite Hinit. repeat split; assumption.
Qed.

Lemma load_without_transform_never_scores_witness :
  (forall x,
     signal_classifier.predict fixtures.no_json
       (signal_classifier.__init__ fixtures.model_only_disk
          signal_classifier.default_model_path) x
     = Raise (ValueError "Model not trained. Call train() first.")) /\
  (forall csv_path, exists e',
     volatility_predictor.predict (fun _ => None)
       (volatility_predictor.__init__ fixtures.h5_only_disk
          volatility_predictor.default_model_path) csv_path = Raise e').
Proof.
  pose proof (load_without_transform_never_scores fixtures.no_json
                fixtures.model_only_disk signal_classifier.default_model_path
                (fixtures.Stump 0 10 0.2 0.9)
                (FileNotFoundError "models/signal_classifier_scaler.pkl")
                (fun _ => None)
                fixtures.h5_only_disk volatility_predictor.default_model_path
                fixtures.keras_stub
                eq_refl eq_refl eq_refl (or_introl eq_refl)) as H.
  split.
  - exact (proj2 (proj1 H)).
  - exact (proj2 (proj2 (proj1 (proj2 H)))).
Defined.

(** C6 at a model path without the [.pkl] suffix.  The name of the
    transform file comes out equal to the model path, the transform is
    written over the model, and the reloaded service has no model to ask
    for a probability: the prediction made before saving is not
    reproduced. *)
Lemma reload_after_train_loses_model :
  signal_classifier.scaler_path fixtures.joblib_model_path
  = fixtures.joblib_model_path /\
  match signal_classifier.train fixtures.toy_random fixtures.fit_stump
          (signal_classifier.__init__ fixtures.empty_disk
             fixtures.joblib_model_path)
          None 0%Z fixtures.empty_disk with
  | Ok (_, self', _, fs') =>
      signal_classifier.predict fixtures.no_json self'
        (signal_classifier.SigDict fixtures.sample_signal)
      = Ok {| signal_classifier.is_profitable := true;
              signal_classifier.confidence := 0.9;
              signal_classifier.recommendation := signal_classifier.TRADE |} /\
      signal_classifier.predict fixtures.no_json
        (signal_classifier.__init__ fs' fixtures.joblib_model_path)
        (signal_classifier.SigDict fixtures.sample_signal)
      = Raise (AttributeError "predict_proba")
  | Raise _ => False
  end.
Proof. split; [ reflexivity | ]. vm_compute. split; reflexivity. Qed.

End ArtifactFacts.

(** ** The sequence windower and the forecaster *)

Module WindowerFacts.
Import volatility_predictor.

(** *** Indexing and ranges *)

Lemma getitem_nth_error {A : Type} (l : list A) (k : nat) (a : A) :
  nth_error l k = Some a -> getitem l (Z.of_nat k) = Ok a.
Proof.
  intros H. unfold getitem.
  assert (Hk : (Z.of_nat k <? 0) = false) by (apply Z.ltb_ge; lia).
  cbv zeta. rewrite Hk, Hk, Nat2Z.id, H. reflexivity.
Qed.

Lemma mapM_map_pre {A B C : Type} (h : A -> B) (f : B -> result C)
    (g : A -> C) (l : list A) :
  (forall a, In a l -> f (h a) = Ok (g a)) ->
  mapM f (map h l) = Ok (map g l).
Proof.
  induction l as [ | a l IH ]; intros Hfg; cbn [mapM map]; [ reflexivity | ].
  rewrite (Hfg a (or_introl eq_refl)). cbn [bind].
  rewrite IH; [ reflexivity | ].
  intros b Hb. apply Hfg. right. exact Hb.
Qed.

Lemma mapM_range {B : Type} (f : Z -> result B) (g : nat -> B) (n : Z) :
  (forall k, (k < Z.to_nat n)%nat -> f (Z.of_nat k) = Ok (g k)) ->
  mapM f (range n) = Ok (map g (seq 0 (Z.to_nat n))).
Proof.
  intros H. unfold range. apply mapM_map_pre.
  intros k Hk. apply in_seq in Hk. apply H. lia.
Qed.

Lemma firstn_as_nth {A : Type} (d0 : A) (n : nat) (l : list A) :
  (n <= List.length l)%nat ->
  firstn n l = map (fun k => nth k l d0) (seq 0 n).
Proof.
  revert l. induction n as [ | n IH ]; intros l Hn; [ reflexivity | ].
  destruct l as [ | a l ]; [ cbn in Hn; lia | ].
  cbn [firstn seq map nth]. f_equal.
  rewrite <- seq_shift, map_map. apply IH. cbn in Hn. lia.
Qed.

Lemma slice_as_nth {A : Type} (d0 : A) (l : list A) (i n : nat) :
  (i + n <= List.length l)%nat ->
  firstn n (skipn i l) = map (fun k => nth (i + k) l d0) (seq 0 n).
Proof.
  revert l. induction i as [ | i IH ]; intros l Hn.
  - cbn [skipn Nat.add]. apply firstn_as_nth. exact Hn.
  - destruct l as [ | a l ]; [ cbn in Hn; lia | ].
    cbn [skipn]. rewrite IH by (cbn in Hn; lia). reflexivity.
Qed.

Lemma firstn_incl {A : Type} (n : nat) (l : list A) : incl (firstn n l) l.
Proof.
  intros x H. rewrite <- (firstn_skipn n l). apply in_or_app. left. exact H.
Qed.

Lemma skipn_incl {A : Type} (n : nat) (l : list A) : incl (skipn n l) l.
Proof.
  intros x H. rewrite <- (firstn_skipn n l). apply in_or_app. right. exact H.
Qed.

Lemma slice_length {A : Type} (l : list A) (i n : nat) :
  (i + n <= List.length l)%nat -> List.length (firstn n (skipn i l)) = n.
Proof.
  intros H. rewrite firstn_length_le; [ reflexivity | ].
  rewrite length_skipn. lia.
Qed.

(** *** Sorting and distinct values *)

Lemma insert_str_perm x l : Permutation (insert_str x l) (x :: l).
Proof.
  induction l as [ | y l IH ]; cbn [insert_str]; [ reflexivity | ].
  destruct (String.leb x y); [ reflexivity | ].
  rewrite IH. apply perm_swap.
Qed.

Lemma sorted_perm l : Permutation (sorted l) l.
Proof.
  induction l as [ | x l IH ]; cbn; [ reflexivity | ].
  fold (sorted l). rewrite insert_str_perm, IH. reflexivity.
Qed.

Lemma insert_row_perm r l : Permutation (insert_row r l) (r :: l).
Proof.
  induction l as [ | y l IH ]; cbn [insert_row]; [ reflexivity | ].
  destruct (row_le r y); [ reflexivity | ].
  rewrite IH. apply perm_swap.
Qed.

Lemma sort_values_perm df : Permutation (sort_values df) df.
Proof.
  induction df as [ | r df IH ]; cbn; [ reflexivity | ].
  fold (sort_values df). rewrite insert_row_perm, IH. reflexivity.
Qed.

Lemma unique_In x l : In x (unique l) <-> In x l.
Proof.
  induction l as [ | y l IH ]; cbn [unique]; [ reflexivity | ].
  cbn [In]. rewrite filter_In, IH.
  destruct (String.eqb_spec x y) as [ -> | Hne ]; cbn [negb].
  - intuition.
  - intuition congruence.
Qed.

Lemma unique_NoDup l : NoDup (unique l).
Proof.
  induction l as [ | y l IH ]; cbn [unique]; constructor.
  - rewrite filter_In, String.eqb_refl. cbn. intros [ _ H ]. discriminate H.
  - apply NoDup_filter. exact IH.
Qed.

Lemma dates_of_In df d : In d (dates_of df) <-> In d (map date df).
Proof.
  unfold dates_of. split; intros H.
  - apply (Permutation_in _ (sorted_perm _)) in H.
    apply (proj1 (unique_In _ _)) in H.
    eapply Permutation_in; [ | exact H ].
    apply Permutation_map. apply sort_values_perm.
  - apply (Permutation_in _ (Permutation_sym (sorted_perm _))).
    apply (proj2 (unique_In _ _)).
    eapply Permutation_in; [ | exact H ].
    apply Permutation_map. apply Permutation_sym. apply sort_values_perm.
Qed.

Lemma dates_of_NoDup df : NoDup (dates_of df).
Proof.
  unfold dates_of.
  eapply Permutation_NoDup;
    [ apply Permutation_sym; apply sorted_perm | apply unique_NoDup ].
Qed.

(** The list [dates] of [prepare_data] has one entry per distinct date. *)
Lemma num_distinct_days_dates df : num_distinct_days df = len (dates_of df).
Proof.
  unfold num_distinct_days, len. f_equal. apply Permutation_length.
  apply NoDup_Permutation.
  - apply NoDup_nodup.
  - apply dates_of_NoDup.
  - intros d. rewrite nodup_In, dates_of_In. reflexivity.
Qed.

(** *** One window *)

Lemma get_group_ok df d :
  In d (dates_of df) ->
  get_group (sort_values df) d = Ok (day_rows df d).
Proof.
  intros H. apply (proj1 (dates_of_In _ _)) in H.
  apply (Permutation_in _ (Permutation_map date
           (Permutation_sym (sort_values_perm df)))) in H.
  apply in_map_iff in H. destruct H as (r & Hr & Hin).
  unfold get_group. fold (day_rows df d).
  assert (Hne : In r (day_rows df d)).
  { unfold day_rows. apply filter_In. split; [ exact Hin | ].
    rewrite Hr. apply String.eqb_refl. }
  destruct (day_rows df d); [ destruct Hne | reflexivity ].
Qed.

Lemma day_features_ok df d :
  In d (dates_of df) ->
  day_features (sort_values df) d = Ok (day_pair df d).
Proof.
  intros H. unfold day_features. rewrite (get_group_ok df d H). reflexivity.
Qed.

Lemma days_slice_In df i n d :
  In d (days_slice df i n) -> In d (dates_of df).
Proof.
  unfold days_slice. intros H. apply firstn_incl in H.
  apply skipn_incl in H. exact H.
Qed.

Lemma window_ok df (L i : nat) :
  (i + L < List.length (dates_of df))%nat ->
  window (sort_values df) (dates_of df) (Z.of_nat L) (Z.of_nat i)
  = Ok (flat_map (day_pair df) (days_slice df i L),
        target_iv df (nth (i + L) (dates_of df) "")).
Proof.
  intros Hlt. unfold window.
  rewrite (mapM_range _ (fun k => day_pair df (nth (i + k) (dates_of df) ""))).
  2:{ intros k Hk. rewrite Nat2Z.id in Hk.
      rewrite <- Nat2Z.inj_add.
      rewrite (getitem_nth_error _ _ (nth (i + k) (dates_of df) ""))
        by (apply nth_error_nth'; lia).
      cbn [bind]. apply day_features_ok. apply nth_In. lia. }
  cbn [bind]. rewrite <- Nat2Z.inj_add.
  rewrite (getitem_nth_error _ _ (nth (i + L) (dates_of df) ""))
    by (apply nth_error_nth'; lia).
  cbn [bind]. rewrite get_group_ok by (apply nth_In; lia).
  cbn [bind]. rewrite Nat2Z.id. f_equal. f_equal.
  rewrite flat_map_concat_map. f_equal.
  unfold days_slice. rewrite (slice_as_nth "") by lia.
  rewrite map_map. reflexivity.
Qed.

(** *** All windows *)

Lemma prepare_frame_ok df (L : Z) :
  0 <= L ->
  prepare_frame df L
  = Ok (map (fun i => flat_map (day_pair df) (days_slice df i (Z.to_nat L)))
            (seq 0 (windows_of df (Z.to_nat L))),
        map (fun i => target_iv df (nth (i + Z.to_nat L) (dates_of df) ""))
            (seq 0 (windows_of df (Z.to_nat L)))).
Proof.
  intros HL. unfold prepare_frame. fold (dates_of df).
  assert (Hn : Z.to_nat (len (dates_of df) - L - 1)
               = windows_of df (Z.to_nat L)).
  { unfold windows_of, len. lia. }
  rewrite (mapM_range _
             (fun i => (flat_map (day_pair df) (days_slice df i (Z.to_nat L)),
                        target_iv df (nth (i + Z.to_nat L) (dates_of df) "")))).
  2:{ intros k Hk. rewrite Hn in Hk. unfold windows_of in Hk.
      rewrite <- (Z2Nat.id L HL) at 1. apply window_ok. lia. }
  cbn [bind]. rewrite Hn, !map_map. reflexivity.
Qed.

Lemma nth_error_map_seq {B : Type} (f : nat -> B) (n i : nat) :
  (i < n)%nat -> nth_error (map f (seq 0 n)) i = Some (f i).
Proof.
  intros Hi. apply map_nth_error.
  rewrite (nth_error_nth' _ 0%nat) by (rewrite length_seq; exact Hi).
  rewrite seq_nth by exact Hi. reflexivity.
Qed.

Lemma day_pairs_length df l :
  List.length (flat_map (day_pair df) l) = (2 * List.length l)%nat.
Proof.
  induction l as [ | d l IH ]; [ reflexivity | ].
  cbn [flat_map day_pair app List.length]. rewrite IH. lia.
Qed.

(** C2. For a table with [D] distinct dates and a window length [L],
    [prepare_data] returns [max(0, D - L - 1)] windows and as many
    targets.  Window [i] is the concatenation of (mean implied vol, summed
    volume) over the [L] dates of indices [i .. i+L-1], hence of length
    [2L], and target [i] is the mean implied vol of the date of index
    [i+L] (pandas' mean, which skips NaN entries). *)
Theorem prepare_data_window_count
    (csvs : csv_store) (csv_path : string) (df : DataFrame) (L : Z) :
  read_csv csvs csv_path = Ok df ->
  0 <= L ->
  exists X y,
    prepare_data csvs csv_path L = Ok (X, y) /\
    len X = Z.max 0 (num_distinct_days df - L - 1) /\
    len y = len X /\
    forall i, (i < List.length X)%nat ->
      exists next_day,
        nth_error (dates_of df) (i + Z.to_nat L) = Some next_day /\
        List.length (days_slice df i (Z.to_nat L)) = Z.to_nat L /\
        nth_error X i
        = Some (flat_map (day_pair df) (days_slice df i (Z.to_nat L))) /\
        len (flat_map (day_pair df) (days_slice df i (Z.to_nat L))) = 2 * L /\
        nth_error y i = Some (target_iv df next_day).
Proof.
  intros Hread HL. unfold prepare_data. rewrite Hread. cbn [bind].
  rewrite (prepare_frame_ok df L HL).
  eexists. eexists. split; [ reflexivity | ].
  assert (Hlen : forall B (f : nat -> B),
             List.length (map f (seq 0 (windows_of df (Z.to_nat L))))
             = windows_of df (Z.to_nat L)).
  { intros B f. rewrite length_map, length_seq. reflexivity. }
  split; [ | split ].
  - unfold len. rewrite Hlen, num_distinct_days_dates.
    unfold windows_of, len. lia.
  - unfold len. rewrite !Hlen. reflexivity.
  - intros i Hi. rewrite Hlen in Hi. unfold windows_of in Hi.
    assert (Hslice : List.length (days_slice df i (Z.to_nat L)) = Z.to_nat L).
    { unfold days_slice. apply slice_length. lia. }
    exists (nth (i + Z.to_nat L) (dates_of df) "").
    split; [ apply nth_error_nth'; lia | ].
    split; [ exact Hslice | ].
    split.
    { apply (nth_error_map_seq
               (fun k => flat_map (day_pair df) (days_slice df k (Z.to_nat L)))).
      unfold windows_of. lia. }
    split; [ unfold len; rewrite day_pairs_length, Hslice; lia | ].
    apply (nth_error_map_seq
             (fun k => target_iv df (nth (k + Z.to_nat L) (dates_of df) ""))).
    unfold windows_of. lia.
Qed.

Lemma prepare_data_window_count_witness :
  exists X y,
    prepare_data (fixtures.one_csv "data/surface.csv"
                    (fixtures.thirteen_days 0.41 510 0.42 520))
                 "data/surface.csv" 10 = Ok (X, y) /\
    len X = 2 /\ len y = 2.
Proof.
  destruct (prepare_data_window_count
              (fixtures.one_csv "data/surface.csv"
                 (fixtures.thirteen_days 0.41 510 0.42 520))
              "data/surface.csv"
              (fixtures.thirteen_days 0.41 510 0.42 520) 10
              eq_refl ltac:(lia))
    as (X & y & Hrun & HX & Hy & _).
  exists X, y. split; [ exact Hrun | ].
  assert (H2 : Z.max 0 (num_distinct_days
                           (fixtures.thirteen_days 0.41 510 0.42 520)
                         - 10 - 1) = 2) by (vm_compute; reflexivity).
  split; [ rewrite HX; exact H2 | rewrite Hy, HX; exact H2 ].
Defined.

(** C3, as the claim words it, fails: on a table with five distinct dates
    and window length 10 the windower raises nothing and returns the empty
    result. *)
Lemma five_days_windower_returns_empty :
  num_distinct_days fixtures.five_days = 5 /\
  prepare_data (fixtures.one_csv "data/surface.csv" fixtures.five_days)
               "data/surface.csv" 10
  = Ok ([], []).
Proof. split; vm_compute; reflexivity. Qed.

(** C3, amended.  On a table with at most [L + 1] distinct dates
    [prepare_data] returns no window and no target, without raising.  The
    error is raised by the forecaster's [predict], which windows with
    length 10 and refuses an empty result: on a table with at most 11
    distinct dates a trained service raises
    [ValueError("Not enough data for prediction")]. *)
Theorem short_surface_rejected_by_predict
    (csvs : csv_store) (csv_path : string) (df : DataFrame) (L : Z)
    (self : VolatilityPredictor) :
  read_csv csvs csv_path = Ok df ->
  num_distinct_days df <= L + 1 ->
  prepare_data csvs csv_path L = Ok ([], []) /\
  (is_trained self = true ->
   num_distinct_days df <= 11 ->
   predict csvs self csv_path
   = Raise (ValueError "Not enough data for prediction")).
Proof.
  intros Hread HD.
  assert (Hempty : forall K, num_distinct_days df <= K + 1 ->
            prepare_data csvs csv_path K = Ok ([], [])).
  { intros K HK. unfold prepare_data. rewrite Hread. cbn [bind].
    unfold prepare_frame. fold (dates_of df).
    rewrite num_distinct_days_dates in HK.
    unfold range.
    replace (Z.to_nat (len (dates_of df) - K - 1)) with 0%nat by lia.
    reflexivity. }
  split; [ apply Hempty; exact HD | ].
  intros Ht H11. unfold predict. rewrite Ht, Hread. cbn [negb bind].
  rewrite (Hempty 10) by lia. reflexivity.
Qed.

Lemma short_surface_rejected_by_predict_witness :
  prepare_data (fixtures.one_csv "data/surface.csv" fixtures.five_days)
               "data/surface.csv" 10 = Ok ([], []) /\
  predict (fixtures.one_csv "data/surface.csv" fixtures.five_days)
          fixtures.forecaster "data/surface.csv"
  = Raise (ValueError "Not enough data for prediction").
Proof.
  assert (H5 : num_distinct_days fixtures.five_days = 5)
    by (vm_compute; reflexivity).
  destruct (short_surface_rejected_by_predict
              (fixtures.one_csv "data/surface.csv" fixtures.five_days)
              "data/surface.csv" fixtures.five_days 10 fixtures.forecaster
              eq_refl ltac:(rewrite H5; lia)) as [ Hprep Hpred ].
  split; [ exact Hprep | ].
  apply Hpred; [ reflexivity | rewrite H5; lia ].
Defined.

(** *** Tables that differ on given dates only *)

Section SameOutside.
Variable ds : list string.

Lemma row_le_same r r' x x' :
  same_outside ds r r' -> same_outside ds x x' -> row_le r x = row_le r' x'.
Proof.
  intros (Hd & Hs & _) (Hd' & Hs' & _). unfold row_le.
  rewrite Hd, Hs, Hd', Hs'. reflexivity.
Qed.

Lemma insert_row_same r r' l l' :
  same_outside ds r r' ->
  Forall2 (same_outside ds) l l' ->
  Forall2 (same_outside ds) (insert_row r l) (insert_row r' l').
Proof.
  intros Hr Hl. induction Hl as [ | x x' l l' Hx Hl IH ]; cbn [insert_row].
  - constructor; [ exact Hr | constructor ].
  - rewrite (row_le_same r r' x x' Hr Hx).
    destruct (row_le r' x').
    + constructor; [ exact Hr | ]. constructor; assumption.
    + constructor; assumption.
Qed.

Lemma sort_values_same df df' :
  Forall2 (same_outside ds) df df' ->
  Forall2 (same_outside ds) (sort_values df) (sort_values df').
Proof.
  intros H. induction H as [ | r r' df df' Hr Hdf IH ]; cbn.
  - constructor.
  - apply insert_row_same; assumption.
Qed.

Lemma dates_same l l' :
  Forall2 (same_outside ds) l l' -> map date l = map date l'.
Proof.
  intros H. induction H as [ | r r' l l' (Hd & _) _ IH ]; cbn [map];
    [ reflexivity | ].
  rewrite Hd, IH. reflexivity.
Qed.

Lemma dates_of_same df df' :
  Forall2 (same_outside ds) df df' -> dates_of df = dates_of df'.
Proof.
  intros H. unfold dates_of.
  rewrite (dates_same _ _ (sort_values_same _ _ H)). reflexivity.
Qed.

Lemma group_same l l' d :
  Forall2 (same_outside ds) l l' ->
  ~ In d ds ->
  filter (fun r => String.eqb (date r) d) l
  = filter (fun r => String.eqb (date r) d) l'.
Proof.
  intros H Hd. induction H as [ | r r' l l' (Hdate & _ & Hrow) _ IH ];
    cbn [filter]; [ reflexivity | ].
  rewrite <- Hdate, IH.
  destruct (String.eqb_spec (date r) d) as [ E | _ ]; [ | reflexivity ].
  destruct Hrow as [ Hin | <- ]; [ | reflexivity ].
  exfalso. apply Hd. rewrite <- E. exact Hin.
Qed.

Lemma day_pair_same df df' d :
  Forall2 (same_outside ds) df df' ->
  ~ In d ds ->
  day_pair df d = day_pair df' d.
Proof.
  intros H Hd. unfold day_pair, mean_iv, total_volume, day_rows.
  rewrite (group_same _ _ d (sort_values_same _ _ H) Hd). reflexivity.
Qed.
End SameOutside.

Lemma NoDup_app_disjoint {A : Type} (l1 l2 : list A) (x : A) :
  NoDup (l1 ++ l2) -> In x l1 -> ~ In x l2.
Proof.
  induction l1 as [ | a l1 IH ]; cbn [app]; intros Hnd Hin; [ destruct Hin | ].
  inversion Hnd as [ | ? ? Hnotin Hnd' ]; subst.
  destruct Hin as [ -> | Hin ].
  - intros Hx. apply Hnotin. apply in_or_app. right. exact Hx.
  - apply IH; assumption.
Qed.

(** A window that ends two dates before the end holds none of the two
    most recent dates. *)
Lemma days_slice_not_latest df i n d :
  (i + n + 2 <= List.length (dates_of df))%nat ->
  In d (days_slice df i n) -> ~ In d (latest_two df).
Proof.
  intros Hlen Hin. unfold latest_two.
  apply (NoDup_app_disjoint
           (firstn (List.length (dates_of df) - 2) (dates_of df))).
  - rewrite firstn_skipn. apply dates_of_NoDup.
  - unfold days_slice in Hin. rewrite firstn_skipn_comm in Hin.
    apply skipn_incl in Hin.
    replace (i + n)%nat
      with (Nat.min (i + n) (List.length (dates_of df) - 2)) in Hin by lia.
    rewrite <- firstn_firstn in Hin. apply firstn_incl in Hin. exact Hin.
Qed.

Lemma flat_map_ext_in {A B : Type} (f g : A -> list B) (l : list A) :
  (forall a, In a l -> f a = g a) -> flat_map f l = flat_map g l.
Proof.
  induction l as [ | a l IH ]; intros H; cbn [flat_map]; [ reflexivity | ].
  rewrite (H a (or_introl eq_refl)), IH; [ reflexivity | ].
  intros b Hb. apply H. right. exact Hb.
Qed.

Lemma last_slice_snoc {A : Type} (l : list A) (a : A) :
  last_slice (l ++ [a]) = [a].
Proof.
  induction l as [ | b l IH ]; [ reflexivity | ].
  cbn [app last_slice]. rewrite IH.
  destruct l; reflexivity.
Qed.

(** The features of every window are those of a table that differs on the
    two most recent dates only. *)
Lemma features_same df df' (L : nat) :
  Forall2 (same_outside (latest_two df)) df df' ->
  map (fun i => flat_map (day_pair df) (days_slice df i L))
      (seq 0 (windows_of df L))
  = map (fun i => flat_map (day_pair df') (days_slice df' i L))
        (seq 0 (windows_of df' L)).
Proof.
  intros H. unfold windows_of, days_slice.
  rewrite <- (dates_of_same _ _ _ H).
  apply map_ext_in. intros i Hi. apply in_seq in Hi.
  apply flat_map_ext_in. intros d Hd.
  apply (day_pair_same _ _ _ _ H).
  apply (days_slice_not_latest df i L); [ lia | exact Hd ].
Qed.

(** C9. With at least [L + 2] distinct dates, the last window that
    [prepare_data] builds covers the [L] dates of indices [D-L-2 .. D-3].
    None of the two most recent dates is among them, and a table that
    differs in the implied vol and volume of the rows of those two dates
    only gives the same windows.  [predict] (where [L] is 10) scores the
    last window, so its predicted value is the same on both tables, while
    the [current_avg_iv] it reports is the mean over all the rows of the
    table it was given, those of the two most recent dates included. *)
Theorem latest_two_dates_never_windowed (df : DataFrame) (L : Z) :
  0 <= L ->
  L + 2 <= num_distinct_days df ->
  let n := Z.to_nat L in
  let D := List.length (dates_of df) in
  exists X y,
    prepare_frame df L = Ok (X, y) /\
    last_slice X = [flat_map (day_pair df) (days_slice df (D - n - 2) n)] /\
    List.length (latest_two df) = 2%nat /\
    (forall d, In d (latest_two df) -> exists r, In r df /\ date r = d) /\
    (forall d, In d (days_slice df (D - n - 2) n) -> ~ In d (latest_two df)) /\
    (forall df',
       Forall2 (same_outside (latest_two df)) df df' ->
       exists y', prepare_frame df' L = Ok (X, y')) /\
    (L = 10 ->
     forall csvs csvs' self csv_path csv_path' df' r,
       read_csv csvs csv_path = Ok df ->
       read_csv csvs' csv_path' = Ok df' ->
       Forall2 (same_outside (latest_two df)) df df' ->
       predict csvs self csv_path = Ok r ->
       current_avg_iv r = F.mean_skipna (map implied_vol df) /\
       exists r',
         predict csvs' self csv_path' = Ok r' /\
         predicted_avg_iv r' = predicted_avg_iv r /\
         current_avg_iv r' = F.mean_skipna (map implied_vol df')).
Proof.
  intros HL HD n D. rewrite num_distinct_days_dates in HD.
  unfold len in HD. fold D in HD.
  eexists. eexists. split; [ apply (prepare_frame_ok df L HL) | ].
  fold n.
  assert (Hw : windows_of df n = S (D - n - 2)).
  { unfold windows_of. fold D. lia. }
  assert (Hsame : forall df',
            Forall2 (same_outside (latest_two df)) df df' ->
            prepare_frame df' L
            = Ok (map (fun i => flat_map (day_pair df) (days_slice df i n))
                      (seq 0 (windows_of df n)),
                  map (fun i => target_iv df' (nth (i + n) (dates_of df') ""))
                      (seq 0 (windows_of df' n)))).
  { intros df' Hrel. rewrite (prepare_frame_ok df' L HL). fold n.
    rewrite (features_same df df' n Hrel). reflexivity. }
  split; [ | split; [ | split; [ | split; [ | split ] ] ] ].
  - rewrite Hw, seq_S, map_app. cbn [map Nat.add]. apply last_slice_snoc.
  - unfold latest_two. rewrite length_skipn. fold D. lia.
  - intros d Hd. unfold latest_two in Hd. apply skipn_incl in Hd.
    apply (proj1 (dates_of_In _ _)) in Hd. apply in_map_iff in Hd.
    destruct Hd as (r & Hr & Hin). exists r. split; assumption.
  - intros d Hd. apply (days_slice_not_latest df (D - n - 2) n);
      [ fold D; lia | exact Hd ].
  - intros df' Hrel. eexists. apply Hsame. exact Hrel.
  - intros HL10 csvs csvs' self csv_path csv_path' df' r Hr Hr' Hrel.
    unfold predict, prepare_data. rewrite Hr, Hr'.
    destruct (negb (is_trained self)); [ discriminate | ].
    cbn [bind]. rewrite <- HL10.
    rewrite (prepare_frame_ok df L HL), (Hsame df' Hrel). fold n.
    cbn [bind fst].
    destruct (len (map (fun i => flat_map (day_pair df) (days_slice df i n))
                       (seq 0 (windows_of df n))) =? 0);
      [ discriminate | ].
    intros H. bind_inv H. cbn [bind]. bind_inv H. cbn [bind].
    bind_inv H. cbn [bind]. bind_inv H. cbn [bind].
    injection H as <-. cbn [current_avg_iv predicted_avg_iv].
    split; [ reflexivity | ].
    eexists. split; [ reflexivity | ]. split; reflexivity.
Qed.

Lemma latest_two_dates_never_windowed_witness :
  let df := fixtures.thirteen_days 0.41 510 0.42 520 in
  0 <= 10 /\ 10 + 2 <= num_distinct_days df /\
  exists X y,
    prepare_frame df 10 = Ok (X, y) /\
    last_slice X = [flat_map (day_pair df) (days_slice df 1 10)] /\
    List.length (latest_two df) = 2%nat.
Proof.
  intros df.
  assert (H0 : 0 <= 10) by lia.
  assert (H13 : 10 + 2 <= num_distinct_days df) by (vm_compute; discriminate).
  split; [ exact H0 | ]. split; [ exact H13 | ].
  destruct (latest_two_dates_never_windowed df 10 H0 H13)
    as (X & y & Hrun & Hlast & Htwo & _).
  exists X, y. split; [ exact Hrun | ]. split; [ exact Hlast | exact Htwo ].
Defined.

(** On thirteen dates the figures of the twelfth and thirteenth date move
    [current_avg_iv] and leave the predicted value where it is. *)
Example latest_dates_move_current_avg_iv_only :
  let run df := predict (fixtures.one_csv "data/surface.csv" df)
                        fixtures.forecaster "data/surface.csv" in
  latest_two (fixtures.thirteen_days 0.41 510 0.42 520)
  = ["2023-01-12"; "2023-01-13"] /\
  exists r r',
    run (fixtures.thirteen_days 0.41 510 0.42 520) = Ok r /\
    run (fixtures.thirteen_days 0.10 90 0.12 80) = Ok r' /\
    predicted_avg_iv r' = predicted_avg_iv r /\
    PrimFloat.ltb (current_avg_iv r') (current_avg_iv r) = true.
Proof.
  split; [ vm_compute; reflexivity | ].
  eexists. eexists.
  split; [ vm_compute; reflexivity | ].
  split; [ vm_compute; reflexivity | ].
  split; reflexivity.
Qed.

End WindowerFacts.
